(** * Verification of [app/processor.py]

    The module validates an incoming message against a schema and produces a
    placeholder trading signal.  It is embedded here as it is written: Python
    dicts are objects in a store, addressed by reference; the three functions
    are computations in a state-and-exception monad over that store and the
    logger's record list. *)

From Corelib Require Import PrimFloat.
From stdpp Require Import gmap strings fin_maps.

Open Scope string_scope.
Set Warnings "-inexact-float".

(** ** Values, objects and the store *)

(** References to dict objects. *)
Abbreviation loc := positive.

(** The values a message can hold ([Any]): immutable scalars, and references
    to dict objects of the store. *)
Inductive value : Type :=
| VNone
| VBool (b : bool)
| VInt (z : Z)
| VFloat (f : float)
| VStr (s : string)
| VRef (l : loc).

(** The content of a [dict[str, Any]]. *)
Abbreviation dict := (gmap string value).

(** The exceptions the module can raise: [raise ValueError(msg)] and the
    [KeyError(key)] of a subscript on a missing key. *)
Inductive exn : Type :=
| ValueError (msg : string)
| KeyError (key : string).

Inductive level : Type := DEBUG | INFO | ERROR.

(** What a logger call is given: the level, the format string and the
    arguments (formatting itself is left to the logging library). *)
Record log_record : Type := LogRecord {
  record_level : level;
  record_msg : string;
  record_args : list value
}.

Record state : Type := State {
  heap : gmap loc dict;
  log : list log_record
}.

(** ** The monad of Python computations *)

(** [Stuck] is no Python exception: it marks a reference that names no dict
    of the store, which the annotation [dict[str, Any]] of every argument
    excludes. *)
Inductive outcome (A : Type) : Type :=
| Ok (a : A)
| Raise (e : exn)
| Stuck.
Arguments Ok {A} a.
Arguments Raise {A} e.
Arguments Stuck {A}.

Definition M (A : Type) : Type := state -> outcome A * state.

Definition ret {A} (a : A) : M A := fun st => (Ok a, st).

Definition bind {A B} (c : M A) (k : A -> M B) : M B :=
  fun st =>
    match c st with
    | (Ok a, st') => k a st'
    | (Raise e, st') => (Raise e, st')
    | (Stuck, st') => (Stuck, st')
    end.

Definition raise {A} (e : exn) : M A := fun st => (Raise e, st).

Declare Scope py_scope.
Delimit Scope py_scope with py.
Notation "x <- c ;; k" := (bind c (fun x => k))
  (at level 100, c at next level, right associativity) : py_scope.
Notation "c ;; k" := (bind c (fun _ => k))
  (at level 100, right associativity) : py_scope.
Open Scope py_scope.

(** [d.get(key)]: the value, or [None] when the key is absent. *)
Definition dict_get (d : loc) (key : string) : M value :=
  fun st =>
    match heap st !! d with
    | Some m => (Ok (default VNone (m !! key)), st)
    | None => (Stuck, st)
    end.

(** [d[key]]: the value, or [KeyError(key)] when the key is absent. *)
Definition dict_getitem (d : loc) (key : string) : M value :=
  fun st =>
    match heap st !! d with
    | Some m =>
        match m !! key with
        | Some v => (Ok v, st)
        | None => (Raise (KeyError key), st)
        end
    | None => (Stuck, st)
    end.

(** The content of a dict display [{k1: v1, ..., kn: vn}]: the items are
    stored from left to right, a later duplicate key replacing an earlier
    one. *)
Definition dict_display (items : list (string * value)) : dict :=
  fold_left (fun m kv => <[kv.1 := kv.2]> m) items ∅.

(** Evaluating a dict display creates a new object. *)
Definition new_dict (items : list (string * value)) : M loc :=
  fun st =>
    let l := fresh (dom (heap st)) in
    (Ok l, State (<[l := dict_display items]> (heap st)) (log st)).

(** [logger.debug], [logger.info], [logger.error]: append one record. *)
Definition logger_call (lv : level) (msg : string) (args : list value) : M unit :=
  fun st => (Ok tt, State (heap st) (log st ++ [LogRecord lv msg args])).

Definition logger_debug := logger_call DEBUG.
Definition logger_info := logger_call INFO.
Definition logger_error := logger_call ERROR.

(** The mapping a computation hands back: the content of the returned dict
    in the final store, or the exception. *)
Definition returned_mapping (r : outcome loc * state) : outcome (option dict) :=
  match r with
  | (Ok l, st) => Ok (heap st !! l)
  | (Raise e, _) => Raise e
  | (Stuck, _) => Stuck
  end.

(** ** The processor *)

Section Processor.

(** [app.utils.validate_data.validate_message_schema] is imported by the
    module and defined elsewhere: a predicate that reads a mapping and answers
    with a boolean. *)
Variable validate_message_schema : dict -> bool.

(** The call [validate_message_schema(message)]. *)
Definition call_validate_message_schema (message : loc) : M bool :=
  fun st =>
    match heap st !! message with
    | Some m => (Ok (validate_message_schema m), st)
    | None => (Stuck, st)
    end.

Definition validate_input_message (message : loc) : M loc :=
  logger_debug "🔍 Validating input message schema..." [] ;;
  valid <- call_validate_message_schema message ;;
  if negb valid then
    logger_error "❌ Invalid message schema: %s" [VRef message] ;;
    raise (ValueError "Invalid message format")
  else
    ret message.

(** Python reads the literal [0.85] as the nearest binary64 value, and so
    does the float notation here. *)
Definition simulate_technical_strategy (message : loc) : M loc :=
  sym <- dict_get message "symbol" ;;
  logger_debug "🧠 Simulating technical strategy for symbol: %s" [sym] ;;
  symbol <- dict_getitem message "symbol" ;;
  timestamp <- dict_getitem message "timestamp" ;;
  result <- new_dict [ ("symbol", symbol);
                       ("timestamp", timestamp);
                       ("strategy", VStr "SMA_Crossover");
                       ("signal", VStr "buy");
                       ("confidence", VFloat 0.85) ] ;;
  logger_info "📈 Generated signal: %s" [VRef result] ;;
  ret result.

Definition process_message (message : loc) : M loc :=
  validated <- validate_input_message message ;;
  simulate_technical_strategy validated.

End Processor.

(** Modelled from the spec: the schema collaborator is not part of the
    module; the spec asks of it that a mapping contain at least [symbol] and
    [timestamp].  This instance checks exactly that, and serves as the
    concrete predicate of the examples. *)
Definition required_fields_schema (m : dict) : bool :=
  match m !! "symbol", m !! "timestamp" with
  | Some _, Some _ => true
  | _, _ => false
  end.

(** A predicate that accepts every mapping: with it, a message without the
    required fields reaches the simulator. *)
Definition permissive_schema (m : dict) : bool := true.

(** ** Example messages *)

Definition aapl_message : dict :=
  {[ "symbol" := VStr "AAPL"; "timestamp" := VStr "2024-01-01T00:00:00Z" ]}.

(** The same event with fields the schema does not name. *)
Definition rich_message : dict :=
  {[ "symbol" := VStr "AAPL"; "timestamp" := VStr "2024-01-01T00:00:00Z";
     "price" := VFloat 189.5; "volume" := VInt 1000 ]}.

(** A message without [timestamp]. *)
Definition partial_message : dict := {[ "symbol" := VStr "AAPL" ]}.

(** A store holding the three messages, and an empty log. *)
Definition example_state : state :=
  State {[ 1%positive := aapl_message;
           2%positive := rich_message;
           3%positive := partial_message ]} [].


(** ** Proof automation *)

(** Unfolds the monad and the primitives of a run, then resolves the
    lookups the hypotheses decide. *)
Ltac run_unfold :=
  unfold process_message, validate_input_message,
    simulate_technical_strategy, call_validate_message_schema,
    bind, ret, raise, dict_get, dict_getitem, new_dict,
    logger_debug, logger_info, logger_error, logger_call.

Ltac run_lookup :=
  cbn [heap log negb];
  match goal with
  | H : _ !! _ = _ |- _ => rewrite H
  | H : _ = true |- _ => rewrite H
  | H : _ = false |- _ => rewrite H
  end.

Ltac run := run_unfold; repeat run_lookup; cbn [heap log negb fst snd].

(** ** Running the primitives *)

Lemma fresh_not_live (h : gmap loc dict) : h !! fresh (dom h) = None.
Proof. apply not_elem_of_dom, is_fresh. Qed.

Lemma fresh_differs (h : gmap loc dict) (l : loc) (m : dict) :
  h !! l = Some m -> fresh (dom h) <> l.
Proof. intros Hl <-. rewrite fresh_not_live in Hl. discriminate. Qed.

Lemma display_five (s t a b c : value) :
  dict_display [ ("symbol", s); ("timestamp", t); ("strategy", a);
                 ("signal", b); ("confidence", c) ]
  = {[ "symbol" := s; "timestamp" := t; "strategy" := a;
       "signal" := b; "confidence" := c ]}.
Proof. reflexivity. Qed.

(** ** Runs of the simulator *)

Lemma simulate_run st message (m : dict) s t :
  heap st !! message = Some m ->
  m !! "symbol" = Some s ->
  m !! "timestamp" = Some t ->
  exists st',
    simulate_technical_strategy message st = (Ok (fresh (dom (heap st))), st')
    /\ heap st' =
       <[fresh (dom (heap st)) :=
           {[ "symbol" := s; "timestamp" := t;
              "strategy" := VStr "SMA_Crossover"; "signal" := VStr "buy";
              "confidence" := VFloat 0.85 ]}]> (heap st).
Proof.
  intros Hlive Hs Ht. run.
  eexists. split; [reflexivity |]. cbn [heap].
  now rewrite display_five.
Qed.

Lemma simulate_run_no_symbol st message (m : dict) :
  heap st !! message = Some m ->
  m !! "symbol" = None ->
  exists st',
    simulate_technical_strategy message st = (Raise (KeyError "symbol"), st')
    /\ heap st' = heap st.
Proof. intros Hlive Hs. run. eexists. split; reflexivity. Qed.

Lemma simulate_run_no_timestamp st message (m : dict) s :
  heap st !! message = Some m ->
  m !! "symbol" = Some s ->
  m !! "timestamp" = None ->
  exists st',
    simulate_technical_strategy message st = (Raise (KeyError "timestamp"), st')
    /\ heap st' = heap st.
Proof. intros Hlive Hs Ht. run. eexists. split; reflexivity. Qed.

Lemma simulate_run_dangling st message :
  heap st !! message = None ->
  simulate_technical_strategy message st = (Stuck, st).
Proof. intros Hdead. run. reflexivity. Qed.

(** Whatever the outcome, the simulator's final store extends the initial
    one: a dict that was there is there unchanged. *)
Lemma simulate_store_extends st message l (d : dict) :
  heap st !! l = Some d ->
  heap (simulate_technical_strategy message st).2 !! l = Some d.
Proof.
  intros Hl.
  destruct (heap st !! message) as [m |] eqn:Hlive.
  - destruct (m !! "symbol") as [s |] eqn:Hs.
    + destruct (m !! "timestamp") as [t |] eqn:Ht.
      * destruct (simulate_run st message m s t Hlive Hs Ht) as (st' & -> & Hh).
        cbn [snd]. rewrite Hh, lookup_insert_ne; [exact Hl |].
        eapply fresh_differs, Hl.
      * destruct (simulate_run_no_timestamp st message m s Hlive Hs Ht)
          as (st' & -> & Hh).
        cbn [snd]. now rewrite Hh.
    + destruct (simulate_run_no_symbol st message m Hlive Hs) as (st' & -> & Hh).
      cbn [snd]. now rewrite Hh.
  - now rewrite simulate_run_dangling.
Qed.

(** The simulator's answer is decided by the two fields it reads. *)
Lemma simulate_reads_two_fields st1 st2 message1 message2 (m1 m2 : dict) :
  heap st1 !! message1 = Some m1 ->
  heap st2 !! message2 = Some m2 ->
  m1 !! "symbol" = m2 !! "symbol" ->
  m1 !! "timestamp" = m2 !! "timestamp" ->
  returned_mapping (simulate_technical_strategy message1 st1)
  = returned_mapping (simulate_technical_strategy message2 st2).
Proof.
  intros H1 H2 Hs Ht.
  destruct (m2 !! "symbol") as [s |] eqn:Hs2.
  - destruct (m2 !! "timestamp") as [t |] eqn:Ht2.
    + destruct (simulate_run st1 message1 m1 s t H1 Hs Ht) as (st1' & -> & E1).
      destruct (simulate_run st2 message2 m2 s t H2 Hs2 Ht2) as (st2' & -> & E2).
      cbn [returned_mapping]. rewrite E1, E2.
      now rewrite !lookup_insert_eq.
    + destruct (simulate_run_no_timestamp st1 message1 m1 s H1 Hs Ht)
        as (st1' & -> & _).
      destruct (simulate_run_no_timestamp st2 message2 m2 s H2 Hs2 Ht2)
        as (st2' & -> & _).
      reflexivity.
  - destruct (simulate_run_no_symbol st1 message1 m1 H1 Hs) as (st1' & -> & _).
    destruct (simulate_run_no_symbol st2 message2 m2 H2 Hs2) as (st2' & -> & _).
    reflexivity.
Qed.

(** ** Runs of the validator and of the orchestrator *)

Section ProcessorRuns.

Variable schema : dict -> bool.

Lemma validate_run_accept st message (m : dict) :
  heap st !! message = Some m ->
  schema m = true ->
  exists st',
    validate_input_message schema message st = (Ok message, st')
    /\ heap st' = heap st.
Proof. intros Hlive Hok. run. eexists. split; reflexivity. Qed.

Lemma validate_run_reject st message (m : dict) :
  heap st !! message = Some m ->
  schema m = false ->
  exists st',
    validate_input_message schema message st
    = (Raise (ValueError "Invalid message format"), st')
    /\ heap st' = heap st.
Proof. intros Hlive Hko. run. eexists. split; reflexivity. Qed.

Lemma validate_run_dangling st message :
  heap st !! message = None ->
  exists st',
    validate_input_message schema message st = (Stuck, st')
    /\ heap st' = heap st.
Proof. intros Hdead. run. eexists. split; reflexivity. Qed.

Lemma validate_store_unchanged st message :
  heap (validate_input_message schema message st).2 = heap st.
Proof.
  destruct (heap st !! message) as [m |] eqn:Hlive.
  - destruct (schema m) eqn:Hm.
    + now destruct (validate_run_accept st message m Hlive Hm) as (st' & -> & Hh).
    + now destruct (validate_run_reject st message m Hlive Hm) as (st' & -> & Hh).
  - now destruct (validate_run_dangling st message Hlive) as (st' & -> & Hh).
Qed.

Lemma process_run_accept st message (m : dict) :
  heap st !! message = Some m ->
  schema m = true ->
  exists st1,
    heap st1 = heap st
    /\ process_message schema message st
       = simulate_technical_strategy message st1.
Proof.
  intros Hlive Hok.
  destruct (validate_run_accept st message m Hlive Hok) as (st1 & Hrun & Hh).
  exists st1. split; [exact Hh |].
  unfold process_message, bind. now rewrite Hrun.
Qed.

Lemma process_run_reject st message (m : dict) :
  heap st !! message = Some m ->
  schema m = false ->
  exists st',
    process_message schema message st
    = (Raise (ValueError "Invalid message format"), st')
    /\ heap st' = heap st.
Proof.
  intros Hlive Hko.
  destruct (validate_run_reject st message m Hlive Hko) as (st' & Hrun & Hh).
  exists st'. split; [| exact Hh].
  unfold process_message, bind. now rewrite Hrun.
Qed.

Lemma process_store_extends st message l (d : dict) :
  heap st !! l = Some d ->
  heap (process_message schema message st).2 !! l = Some d.
Proof.
  intros Hl.
  destruct (heap st !! message) as [m |] eqn:Hlive.
  - destruct (schema m) eqn:Hm.
    + destruct (process_run_accept st message m Hlive Hm) as (st1 & Hh & ->).
      apply simulate_store_extends. now rewrite Hh.
    + destruct (process_run_reject st message m Hlive Hm) as (st' & -> & Hh).
      cbn [snd]. now rewrite Hh.
  - destruct (validate_run_dangling st message Hlive) as (st' & Hrun & Hh).
    unfold process_message, bind. rewrite Hrun. cbn [snd]. now rewrite Hh.
Qed.

(** The orchestrator's answer is decided by the content of the message. *)
Lemma process_reads_content st1 st2 message1 message2 (m : dict) :
  heap st1 !! message1 = Some m ->
  heap st2 !! message2 = Some m ->
  returned_mapping (process_message schema message1 st1)
  = returned_mapping (process_message schema message2 st2).
Proof.
  intros H1 H2.
  destruct (schema m) eqn:Hm.
  - destruct (process_run_accept st1 message1 m H1 Hm) as (st1' & Hh1 & ->).
    destruct (process_run_accept st2 message2 m H2 Hm) as (st2' & Hh2 & ->).
    apply (simulate_reads_two_fields st1' st2' message1 message2 m m);
      congruence.
  - destruct (process_run_reject st1 message1 m H1 Hm) as (st1' & -> & _).
    destruct (process_run_reject st2 message2 m H2 Hm) as (st2' & -> & _).
    reflexivity.
Qed.

End ProcessorRuns.

(** ** Concrete runs *)

(** A later duplicate key of a dict display replaces the earlier one. *)
Example dict_display_duplicate :
  dict_display [ ("signal", VStr "sell"); ("signal", VStr "buy") ]
  = {[ "signal" := VStr "buy" ]}.
Proof. reflexivity. Qed.

(** The full run on the AAPL message: the result is the fourth object of the
    store, and the log holds the validator's record and the simulator's two. *)
Example process_message_aapl_run :
  process_message required_fields_schema 1 example_state
  = (Ok 4%positive,
     State
       (<[4%positive :=
            {[ "symbol" := VStr "AAPL";
               "timestamp" := VStr "2024-01-01T00:00:00Z";
               "strategy" := VStr "SMA_Crossover"; "signal" := VStr "buy";
               "confidence" := VFloat 0.85 ]}]> (heap example_state))
       [ LogRecord DEBUG "🔍 Validating input message schema..." [];
         LogRecord DEBUG "🧠 Simulating technical strategy for symbol: %s"
           [VStr "AAPL"];
         LogRecord INFO "📈 Generated signal: %s" [VRef 4] ]).
Proof. vm_compute. reflexivity. Qed.

(** A message without [timestamp] is rejected, and the error is logged with
    the message as argument. *)
Example process_message_partial_run :
  process_message required_fields_schema 3 example_state
  = (Raise (ValueError "Invalid message format"),
     State (heap example_state)
       [ LogRecord DEBUG "🔍 Validating input message schema..." [];
         LogRecord ERROR "❌ Invalid message schema: %s" [VRef 3] ]).
Proof. vm_compute. reflexivity. Qed.

(** Called on that message directly, the simulator logs the symbol, and the
    subscript on [timestamp] raises before any dict is created. *)
Example simulate_partial_run :
  simulate_technical_strategy 3 example_state
  = (Raise (KeyError "timestamp"),
     State (heap example_state)
       [ LogRecord DEBUG "🧠 Simulating technical strategy for symbol: %s"
           [VStr "AAPL"] ]).
Proof. vm_compute. reflexivity. Qed.

(** On an empty mapping, [get] answers [None] for the log and the first
    subscript raises. *)
Example simulate_empty_run :
  simulate_technical_strategy 1 (State {[ 1%positive := ∅ ]} [])
  = (Raise (KeyError "symbol"),
     State {[ 1%positive := ∅ ]}
       [ LogRecord DEBUG "🧠 Simulating technical strategy for symbol: %s"
           [VNone] ]).
Proof. vm_compute. reflexivity. Qed.

(** ** The specification's statements *)

Section ProcessorSpec.

Variable schema : dict -> bool.

(** C1. On a message holding [symbol] and [timestamp], the simulator returns
    the mapping that copies both values verbatim and has the constants
    ["SMA_Crossover"], ["buy"] and [0.85] in its three other fields; in
    particular, on a message the schema predicate accepts, with symbol
    ["AAPL"] and timestamp ["2024-01-01T00:00:00Z"], [process_message]
    returns exactly the mapping of these five entries. *)
Theorem process_message_signal st message (m : dict) s t :
  heap st !! message = Some m ->
  m !! "symbol" = Some s ->
  m !! "timestamp" = Some t ->
  returned_mapping (simulate_technical_strategy message st)
  = Ok (Some {[ "symbol" := s; "timestamp" := t;
                "strategy" := VStr "SMA_Crossover"; "signal" := VStr "buy";
                "confidence" := VFloat 0.85 ]})
  /\ (schema m = true ->
      s = VStr "AAPL" ->
      t = VStr "2024-01-01T00:00:00Z" ->
      returned_mapping (process_message schema message st)
      = Ok (Some {[ "symbol" := VStr "AAPL";
                    "timestamp" := VStr "2024-01-01T00:00:00Z";
                    "strategy" := VStr "SMA_Crossover";
                    "signal" := VStr "buy";
                    "confidence" := VFloat 0.85 ]})).
Proof.
  intros Hlive Hs Ht.
  assert (Hsim : forall st0, heap st0 = heap st ->
    returned_mapping (simulate_technical_strategy message st0)
    = Ok (Some {[ "symbol" := s; "timestamp" := t;
                  "strategy" := VStr "SMA_Crossover"; "signal" := VStr "buy";
                  "confidence" := VFloat 0.85 ]})).
  { intros st0 Hh.
    destruct (simulate_run st0 message m s t) as (st' & -> & E);
      [now rewrite Hh | assumption | assumption |].
    cbn [returned_mapping]. now rewrite E, lookup_insert_eq. }
  split; [now apply Hsim |].
  intros Hok -> ->.
  destruct (process_run_accept schema st message m Hlive Hok) as (st1 & Hh & ->).
  now apply Hsim.
Qed.

(** C2. On a message the schema predicate rejects, the validator raises
    [ValueError("Invalid message format")] (the spec's ValidationError), and
    [process_message] ends exactly as the validator did: same exception,
    same final state.  In particular, if the predicate rejects every mapping
    that lacks [symbol] or [timestamp], [process_message] raises that error
    on every such message. *)
Theorem validation_error_propagates st message (m : dict) :
  heap st !! message = Some m ->
  (schema m = false ->
   (validate_input_message schema message st).1
   = Raise (ValueError "Invalid message format")
   /\ process_message schema message st
      = (Raise (ValueError "Invalid message format"),
         (validate_input_message schema message st).2))
  /\ ((forall m' : dict,
         m' !! "symbol" = None \/ m' !! "timestamp" = None ->
         schema m' = false) ->
      m !! "symbol" = None \/ m !! "timestamp" = None ->
      (process_message schema message st).1
      = Raise (ValueError "Invalid message format")).
Proof.
  intros Hlive.
  assert (Hrej : schema m = false ->
    (validate_input_message schema message st).1
    = Raise (ValueError "Invalid message format")
    /\ process_message schema message st
       = (Raise (ValueError "Invalid message format"),
          (validate_input_message schema message st).2)).
  { intros Hko.
    destruct (validate_run_reject schema st message m Hlive Hko)
      as (st' & Hrun & _).
    unfold process_message, bind. rewrite Hrun. now split. }
  split; [exact Hrej |].
  intros Hschema Hmiss.
  destruct (Hrej (Hschema m Hmiss)) as [_ ->]. reflexivity.
Qed.

(** C3. [process_message] is the validator followed by the simulator: when
    the validator returns, the result is the simulator's run on what it
    returned, from the state it left; when the validator raises, that
    exception and that state are the result.  There is no other branch. *)
Theorem process_is_validate_then_simulate st message (m : dict) :
  heap st !! message = Some m ->
  match validate_input_message schema message st with
  | (Ok validated, st1) =>
      process_message schema message st
      = simulate_technical_strategy validated st1
  | (Raise e, st1) => process_message schema message st = (Raise e, st1)
  | (Stuck, _) => False
  end.
Proof.
  intros Hlive. unfold process_message, bind.
  destruct (schema m) eqn:Hm.
  - now destruct (validate_run_accept schema st message m Hlive Hm)
      as (st1 & -> & _).
  - now destruct (validate_run_reject schema st message m Hlive Hm)
      as (st1 & -> & _).
Qed.

(** C4. On a message the schema predicate accepts, the validator returns the
    reference it was given, and leaves the store as it was: no dict is
    created, and no key or value of the message is changed. *)
Theorem validate_returns_same_mapping st message (m : dict) :
  heap st !! message = Some m ->
  schema m = true ->
  (validate_input_message schema message st).1 = Ok message
  /\ heap (validate_input_message schema message st).2 = heap st
  /\ heap (validate_input_message schema message st).2 !! message = Some m.
Proof.
  intros Hlive Hok.
  destruct (validate_run_accept schema st message m Hlive Hok)
    as (st' & -> & Hh).
  cbn [fst snd]. rewrite Hh. auto.
Qed.

(** C5. On a mapping that lacks [symbol] or [timestamp], the simulator
    raises [KeyError] on the first of the two keys that is missing, and that
    error is what [process_message] raises when the schema predicate let
    the message through.  If the predicate accepts only mappings that hold
    both keys, no run of [process_message] ends in a [KeyError]. *)
Theorem simulate_missing_field_error st message (m : dict) :
  heap st !! message = Some m ->
  m !! "symbol" = None \/ m !! "timestamp" = None ->
  (simulate_technical_strategy message st).1
  = Raise (KeyError (match m !! "symbol" with
                     | None => "symbol"
                     | Some _ => "timestamp"
                     end))
  /\ (schema m = true ->
      (process_message schema message st).1
      = (simulate_technical_strategy message st).1)
  /\ ((forall m' : dict,
         schema m' = true ->
         is_Some (m' !! "symbol") /\ is_Some (m' !! "timestamp")) ->
      forall st0 message0 key,
        (process_message schema message0 st0).1 <> Raise (KeyError key)).
Proof.
  intros Hlive Hmiss.
  assert (Hsim : forall st0, heap st0 = heap st ->
    (simulate_technical_strategy message st0).1
    = Raise (KeyError (match m !! "symbol" with
                       | None => "symbol"
                       | Some _ => "timestamp"
                       end))).
  { intros st0 Hh. rewrite <- Hh in Hlive.
    destruct (m !! "symbol") as [s |] eqn:Hs.
    - destruct Hmiss as [Hmiss | Hmiss]; [discriminate |].
      now destruct (simulate_run_no_timestamp st0 message m s Hlive Hs Hmiss)
        as (st' & -> & _).
    - now destruct (simulate_run_no_symbol st0 message m Hlive Hs)
        as (st' & -> & _). }
  split; [now apply Hsim |]. split.
  - intros Hok.
    destruct (process_run_accept schema st message m Hlive Hok)
      as (st1 & Hh & ->).
    now rewrite !Hsim.
  - intros Hschema st0 message0 key.
    destruct (heap st0 !! message0) as [m0 |] eqn:Hlive0.
    + destruct (schema m0) eqn:Hm0.
      * destruct (Hschema m0 Hm0) as [[s Hs] [t Ht]].
        destruct (process_run_accept schema st0 message0 m0 Hlive0 Hm0)
          as (st1 & Hh & ->).
        rewrite <- Hh in Hlive0.
        now destruct (simulate_run st1 message0 m0 s t Hlive0 Hs Ht)
          as (st' & -> & _).
      * now destruct (process_run_reject schema st0 message0 m0 Hlive0 Hm0)
          as (st' & -> & _).
    + destruct (validate_run_dangling schema st0 message0 Hlive0)
        as (st' & Hrun & _).
      unfold process_message, bind. now rewrite Hrun.
Qed.

(** C6. On a message holding [symbol] and [timestamp], whatever else it
    holds, the mapping the simulator returns has the keys [symbol],
    [timestamp], [strategy], [signal] and [confidence] and no other: no
    further key of the input appears in it. *)
Theorem simulate_result_keys st message (m : dict) :
  heap st !! message = Some m ->
  is_Some (m !! "symbol") ->
  is_Some (m !! "timestamp") ->
  exists result : dict,
    returned_mapping (simulate_technical_strategy message st)
    = Ok (Some result)
    /\ dom result
       = ({[ "symbol"; "timestamp"; "strategy"; "signal"; "confidence" ]}
          : gset string)
    /\ forall key,
         key ∈ dom m ->
         key ∉ ({[ "symbol"; "timestamp"; "strategy"; "signal";
                   "confidence" ]} : gset string) ->
         result !! key = None.
Proof.
  intros Hlive [s Hs] [t Ht].
  destruct (simulate_run st message m s t Hlive Hs Ht) as (st' & -> & E).
  eexists. cbn [returned_mapping]. rewrite E, lookup_insert_eq.
  split; [reflexivity |].
  assert (Hdom : dom ({[ "symbol" := s; "timestamp" := t;
                         "strategy" := VStr "SMA_Crossover";
                         "signal" := VStr "buy";
                         "confidence" := VFloat 0.85 ]} : dict)
                 = ({[ "symbol"; "timestamp"; "strategy"; "signal";
                       "confidence" ]} : gset string)).
  { rewrite !dom_insert_L, dom_singleton_L. set_solver. }
  split; [exact Hdom |].
  intros key _ Hout. apply not_elem_of_dom. now rewrite Hdom.
Qed.

(** C7. The simulator does not mutate its input: after the call, whether it
    returned or raised, the message has the keys and values it had before,
    and so has every other dict of the store; the mapping it returns is a
    new object, not the message. *)
Theorem simulate_preserves_input st message (m : dict) :
  heap st !! message = Some m ->
  heap (simulate_technical_strategy message st).2 !! message = Some m
  /\ (forall l (d : dict),
        heap st !! l = Some d ->
        heap (simulate_technical_strategy message st).2 !! l = Some d)
  /\ (forall result,
        (simulate_technical_strategy message st).1 = Ok result ->
        result <> message /\ heap st !! result = None).
Proof.
  intros Hlive. split; [now apply simulate_store_extends |].
  split; [intros l d; apply simulate_store_extends |].
  intros result.
  destruct (m !! "symbol") as [s |] eqn:Hs.
  - destruct (m !! "timestamp") as [t |] eqn:Ht.
    + destruct (simulate_run st message m s t Hlive Hs Ht) as (st' & -> & _).
      cbn [fst]. intros [= <-].
      split; [eapply fresh_differs, Hlive | apply fresh_not_live].
    + now destruct (simulate_run_no_timestamp st message m s Hlive Hs Ht)
        as (st' & -> & _).
  - now destruct (simulate_run_no_symbol st message m Hlive Hs)
      as (st' & -> & _).
Qed.

(** C8. [process_message] is deterministic: a second call on the same
    message, made in the state the first call left (its log records and its
    result object included), hands back a mapping equal to the first one;
    and from any state whatever, the answer is decided by the content of the
    message alone. *)
Theorem process_deterministic st message (m : dict) :
  heap st !! message = Some m ->
  returned_mapping
    (process_message schema message (process_message schema message st).2)
  = returned_mapping (process_message schema message st)
  /\ (forall st2 message2,
        heap st2 !! message2 = Some m ->
        returned_mapping (process_message schema message2 st2)
        = returned_mapping (process_message schema message st)).
Proof.
  intros Hlive. split.
  - apply (process_reads_content schema _ _ _ _ m); [| exact Hlive].
    now apply process_store_extends.
  - intros st2 message2 H2.
    now apply (process_reads_content schema _ _ _ _ m).
Qed.

(** C9. Two input mappings that both hold [symbol] and [timestamp] and agree
    on the values of these two keys get equal results from the simulator,
    whatever their other entries and whatever the states of the two calls. *)
Theorem simulate_noninterference st1 st2 message1 message2 (m1 m2 : dict) :
  heap st1 !! message1 = Some m1 ->
  heap st2 !! message2 = Some m2 ->
  is_Some (m1 !! "symbol") ->
  is_Some (m1 !! "timestamp") ->
  m1 !! "symbol" = m2 !! "symbol" ->
  m1 !! "timestamp" = m2 !! "timestamp" ->
  returned_mapping (simulate_technical_strategy message1 st1)
  = returned_mapping (simulate_technical_strategy message2 st2)
  /\ exists result : dict,
       returned_mapping (simulate_technical_strategy message1 st1)
       = Ok (Some result).
Proof.
  intros H1 H2 [s Hs] [t Ht] Es Et. split.
  - now apply (simulate_reads_two_fields st1 st2 message1 message2 m1 m2).
  - destruct (simulate_run st1 message1 m1 s t H1 Hs Ht) as (st' & -> & E).
    cbn [returned_mapping]. rewrite E, lookup_insert_eq. eauto.
Qed.

(** C10. The pipeline does not mutate its argument.  The validator leaves
    the whole store as it was; after [process_message], on success and on
    failure alike, the message has the keys and values it had before, and
    so has every other dict that existed; when validation fails the store
    is exactly the one before the call. *)
Theorem process_preserves_input st message (m : dict) :
  heap st !! message = Some m ->
  heap (validate_input_message schema message st).2 = heap st
  /\ heap (process_message schema message st).2 !! message = Some m
  /\ (forall l (d : dict),
        heap st !! l = Some d ->
        heap (process_message schema message st).2 !! l = Some d)
  /\ (schema m = false ->
      heap (process_message schema message st).2 = heap st).
Proof.
  intros Hlive.
  split; [apply validate_store_unchanged |].
  split; [now apply process_store_extends |].
  split; [intros l d; apply process_store_extends |].
  intros Hko.
  now destruct (process_run_reject schema st message m Hlive Hko)
    as (st' & -> & Hh).
Qed.

End ProcessorSpec.

(** ** The statements on concrete messages *)

Lemma required_fields_schema_sound (m : dict) :
  required_fields_schema m = true ->
  is_Some (m !! "symbol") /\ is_Some (m !! "timestamp").
Proof.
  unfold required_fields_schema.
  destruct (m !! "symbol"), (m !! "timestamp"); try discriminate; eauto.
Qed.

Lemma required_fields_schema_complete (m : dict) :
  m !! "symbol" = None \/ m !! "timestamp" = None ->
  required_fields_schema m = false.
Proof.
  unfold required_fields_schema.
  intros [-> | ->]; [reflexivity |]. now destruct (m !! "symbol").
Qed.

Lemma process_message_signal_witness :
  returned_mapping (simulate_technical_strategy 1 example_state)
  = Ok (Some {[ "symbol" := VStr "AAPL";
                "timestamp" := VStr "2024-01-01T00:00:00Z";
                "strategy" := VStr "SMA_Crossover"; "signal" := VStr "buy";
                "confidence" := VFloat 0.85 ]})
  /\ returned_mapping (process_message required_fields_schema 1 example_state)
     = Ok (Some {[ "symbol" := VStr "AAPL";
                   "timestamp" := VStr "2024-01-01T00:00:00Z";
                   "strategy" := VStr "SMA_Crossover"; "signal" := VStr "buy";
                   "confidence" := VFloat 0.85 ]}).
Proof.
  destruct (process_message_signal required_fields_schema example_state 1
              aapl_message (VStr "AAPL") (VStr "2024-01-01T00:00:00Z")
              eq_refl eq_refl eq_refl) as [Hsim Hproc].
  split; [exact Hsim | exact (Hproc eq_refl eq_refl eq_refl)].
Defined.

Lemma validation_error_propagates_witness :
  heap example_state !! 3%positive = Some partial_message
  /\ required_fields_schema partial_message = false
  /\ partial_message !! "timestamp" = None
  /\ (validate_input_message required_fields_schema 3 example_state).1
     = Raise (ValueError "Invalid message format")
  /\ process_message required_fields_schema 3 example_state
     = (Raise (ValueError "Invalid message format"),
        (validate_input_message required_fields_schema 3 example_state).2)
  /\ (process_message required_fields_schema 3 example_state).1
     = Raise (ValueError "Invalid message format").
Proof.
  destruct (validation_error_propagates required_fields_schema example_state 3
              partial_message eq_refl) as [Hrej Hmiss].
  destruct (Hrej eq_refl) as [Hval Hproc].
  split; [reflexivity |]. split; [reflexivity |]. split; [reflexivity |].
  split; [exact Hval |]. split; [exact Hproc |].
  exact (Hmiss required_fields_schema_complete (or_intror eq_refl)).
Defined.

Lemma process_is_validate_then_simulate_witness :
  (validate_input_message required_fields_schema 1 example_state).1
  = Ok 1%positive
  /\ process_message required_fields_schema 1 example_state
     = simulate_technical_strategy 1
         (validate_input_message required_fields_schema 1 example_state).2.
Proof.
  split; [reflexivity |].
  exact (process_is_validate_then_simulate required_fields_schema
           example_state 1 aapl_message eq_refl).
Defined.

Lemma validate_returns_same_mapping_witness :
  heap example_state !! 2%positive = Some rich_message
  /\ required_fields_schema rich_message = true
  /\ (validate_input_message required_fields_schema 2 example_state).1 = Ok 2%positive
  /\ heap (validate_input_message required_fields_schema 2 example_state).2
     = heap example_state
  /\ heap (validate_input_message required_fields_schema 2 example_state).2
       !! 2%positive
     = Some rich_message.
Proof.
  split; [reflexivity |]. split; [reflexivity |].
  exact (validate_returns_same_mapping required_fields_schema example_state 2
           rich_message eq_refl eq_refl).
Defined.

Lemma simulate_missing_field_error_witness :
  (simulate_technical_strategy 3 example_state).1
  = Raise (KeyError "timestamp")
  /\ (process_message permissive_schema 3 example_state).1
     = Raise (KeyError "timestamp")
  /\ (forall st0 message0 key,
        (process_message required_fields_schema message0 st0).1
        <> Raise (KeyError key)).
Proof.
  destruct (simulate_missing_field_error permissive_schema example_state 3
              partial_message eq_refl (or_intror eq_refl))
    as (Hsim & Hproc & _).
  destruct (simulate_missing_field_error required_fields_schema example_state 3
              partial_message eq_refl (or_intror eq_refl))
    as (_ & _ & Hnever).
  split; [exact Hsim |].
  split; [exact (eq_trans (Hproc eq_refl) Hsim) |].
  exact (Hnever required_fields_schema_sound).
Defined.

Lemma simulate_result_keys_witness :
  heap example_state !! 2%positive = Some rich_message
  /\ rich_message !! "price" = Some (VFloat 189.5)
  /\ exists result : dict,
       returned_mapping (simulate_technical_strategy 2 example_state)
       = Ok (Some result)
       /\ dom result
          = ({[ "symbol"; "timestamp"; "strategy"; "signal"; "confidence" ]}
             : gset string)
       /\ forall key,
            key ∈ dom rich_message ->
            key ∉ ({[ "symbol"; "timestamp"; "strategy"; "signal";
                      "confidence" ]} : gset string) ->
            result !! key = None.
Proof.
  split; [reflexivity |]. split; [reflexivity |].
  exact (simulate_result_keys example_state 2 rich_message eq_refl
           (ex_intro _ _ eq_refl) (ex_intro _ _ eq_refl)).
Defined.

Lemma simulate_preserves_input_witness :
  heap example_state !! 2%positive = Some rich_message
  /\ heap (simulate_technical_strategy 2 example_state).2 !! 2%positive
     = Some rich_message
  /\ (forall l (d : dict),
        heap example_state !! l = Some d ->
        heap (simulate_technical_strategy 2 example_state).2 !! l = Some d)
  /\ (forall result,
        (simulate_technical_strategy 2 example_state).1 = Ok result ->
        result <> 2%positive /\ heap example_state !! result = None).
Proof.
  split; [reflexivity |].
  exact (simulate_preserves_input example_state 2 rich_message eq_refl).
Defined.

Lemma process_deterministic_witness :
  heap example_state !! 1%positive = Some aapl_message
  /\ returned_mapping
       (process_message required_fields_schema 1
          (process_message required_fields_schema 1 example_state).2)
     = returned_mapping (process_message required_fields_schema 1 example_state)
  /\ (forall st2 message2,
        heap st2 !! message2 = Some aapl_message ->
        returned_mapping (process_message required_fields_schema message2 st2)
        = returned_mapping
            (process_message required_fields_schema 1 example_state)).
Proof.
  split; [reflexivity |].
  exact (process_deterministic required_fields_schema example_state 1
           aapl_message eq_refl).
Defined.

Lemma simulate_noninterference_witness :
  aapl_message <> rich_message
  /\ returned_mapping (simulate_technical_strategy 1 example_state)
     = returned_mapping (simulate_technical_strategy 2 example_state)
  /\ exists result : dict,
       returned_mapping (simulate_technical_strategy 1 example_state)
       = Ok (Some result).
Proof.
  split.
  - intros E. apply (f_equal (fun m : dict => m !! "price")) in E.
    discriminate E.
  - exact (simulate_noninterference example_state example_state 1 2
             aapl_message rich_message eq_refl eq_refl
             (ex_intro _ _ eq_refl) (ex_intro _ _ eq_refl) eq_refl eq_refl).
Defined.

Lemma process_preserves_input_witness :
  heap example_state !! 3%positive = Some partial_message
  /\ required_fields_schema partial_message = false
  /\ heap (validate_input_message required_fields_schema 3 example_state).2
     = heap example_state
  /\ heap (process_message required_fields_schema 3 example_state).2
       !! 3%positive
     = Some partial_message
  /\ (forall l (d : dict),
        heap example_state !! l = Some d ->
        heap (process_message required_fields_schema 3 example_state).2 !! l
        = Some d)
  /\ heap (process_message required_fields_schema 3 example_state).2
     = heap example_state.
Proof.
  destruct (process_preserves_input required_fields_schema example_state 3
              partial_message eq_refl) as (Hval & Hmsg & Hall & Hfail).
  split; [reflexivity |]. split; [reflexivity |].
  split; [exact Hval |]. split; [exact Hmsg |]. split; [exact Hall |].
  exact (Hfail eq_refl).
Defined.

(** * Further properties of the processor *)

(** ** What the functions log, and what they do to the store *)

Section ProcessorTraces.

Variable schema : dict -> bool.

(** X1. The validator appends its DEBUG record to the log, and on a rejected
    message an ERROR record after it, whose argument is the message itself;
    it writes nothing else and keeps the records that were there. *)
Theorem validate_log_trace st message (m : dict) :
  heap st !! message = Some m ->
  log (validate_input_message schema message st).2
  = (log st
     ++ LogRecord DEBUG "🔍 Validating input message schema..." []
        :: (if schema m then []
            else [LogRecord ERROR "❌ Invalid message schema: %s"
                    [VRef message]]))%list.
Proof.
  intros Hlive. destruct (schema m) eqn:Hm; run.
  - reflexivity.
  - now rewrite <- app_assoc.
Qed.

(** X2. The simulator first logs, at DEBUG level, what [get("symbol")]
    answers ([None] when the key is absent), also when a subscript raises
    afterwards; the INFO record is written only when it returns, and its
    argument is the very object it returns. *)
Theorem simulate_log_trace st message (m : dict) :
  heap st !! message = Some m ->
  log (simulate_technical_strategy message st).2
  = (log st
     ++ LogRecord DEBUG "🧠 Simulating technical strategy for symbol: %s"
          [default VNone (m !! "symbol")]
        :: match (simulate_technical_strategy message st).1 with
           | Ok result =>
               [LogRecord INFO "📈 Generated signal: %s" [VRef result]]
           | _ => []
           end)%list.
Proof.
  intros Hlive.
  destruct (m !! "symbol") as [s |] eqn:Hs;
    [destruct (m !! "timestamp") as [t |] eqn:Ht |]; run.
  - now rewrite <- app_assoc.
  - reflexivity.
  - reflexivity.
Qed.

(** X3. [process_message] returns exactly when the schema predicate accepts
    the message and the message holds both [symbol] and [timestamp]; the
    only exceptions it raises are [ValueError("Invalid message format")],
    [KeyError("symbol")] and [KeyError("timestamp")], and a rejected message
    gets the [ValueError] even when a field is missing. *)
Theorem process_succeeds_iff st message (m : dict) :
  heap st !! message = Some m ->
  ((exists result, (process_message schema message st).1 = Ok result)
   <-> schema m = true
       /\ is_Some (m !! "symbol") /\ is_Some (m !! "timestamp"))
  /\ (forall e,
        (process_message schema message st).1 = Raise e ->
        (e = ValueError "Invalid message format" /\ schema m = false)
        \/ (e = KeyError "symbol" /\ schema m = true /\ m !! "symbol" = None)
        \/ (e = KeyError "timestamp" /\ schema m = true
            /\ is_Some (m !! "symbol") /\ m !! "timestamp" = None)).
Proof.
  intros Hlive.
  destruct (schema m) eqn:Hm.
  - destruct (process_run_accept schema st message m Hlive Hm)
      as (st1 & Hh & ->).
    rewrite <- Hh in Hlive.
    destruct (m !! "symbol") as [s |] eqn:Hs.
    + destruct (m !! "timestamp") as [t |] eqn:Ht.
      * destruct (simulate_run st1 message m s t Hlive Hs Ht) as (st' & -> & _).
        cbn [fst]. split; [| intros e [=]].
        split; [intros _; repeat split; eauto | intros _; eauto].
      * destruct (simulate_run_no_timestamp st1 message m s Hlive Hs Ht)
          as (st' & -> & _).
        cbn [fst]. split.
        -- split; [intros [r [=]] | intros (_ & _ & [t [=]])].
        -- intros e [= <-]. right. right. repeat split; eauto.
    + destruct (simulate_run_no_symbol st1 message m Hlive Hs)
        as (st' & -> & _).
      cbn [fst]. split.
      * split; [intros [r [=]] | intros (_ & [s [=]] & _)].
      * intros e [= <-]. right. left. auto.
  - destruct (process_run_reject schema st message m Hlive Hm)
      as (st' & -> & _).
    cbn [fst]. split.
    + split; [intros [r [=]] | intros ([=] & _)].
    + intros e [= <-]. left. auto.
Qed.

(** X4. When [process_message] returns, the store is the one before the
    call with a single new object, the result, at a reference that was not
    in use; when it raises, be it the validation error or a [KeyError], the
    store is exactly the one before the call: no result is left half
    built. *)
Theorem process_store_effect st message (m : dict) :
  heap st !! message = Some m ->
  match (process_message schema message st).1 with
  | Ok result =>
      heap st !! result = None
      /\ exists signal : dict,
           heap (process_message schema message st).2
           = <[result := signal]> (heap st)
  | _ => heap (process_message schema message st).2 = heap st
  end.
Proof.
  intros Hlive.
  destruct (schema m) eqn:Hm.
  - destruct (process_run_accept schema st message m Hlive Hm)
      as (st1 & Hh & ->).
    rewrite <- Hh in Hlive.
    destruct (m !! "symbol") as [s |] eqn:Hs.
    + destruct (m !! "timestamp") as [t |] eqn:Ht.
      * destruct (simulate_run st1 message m s t Hlive Hs Ht) as (st' & -> & E).
        cbn [fst snd]. rewrite E, Hh.
        split; [apply fresh_not_live | eauto].
      * destruct (simulate_run_no_timestamp st1 message m s Hlive Hs Ht)
          as (st' & -> & E).
        cbn [fst snd]. congruence.
    + destruct (simulate_run_no_symbol st1 message m Hlive Hs)
        as (st' & -> & E).
      cbn [fst snd]. congruence.
  - now destruct (process_run_reject schema st message m Hlive Hm)
      as (st' & -> & E).
Qed.

(** X5. Two successive calls of [process_message] on one valid message
    return two different objects, neither of them the message; the second
    call leaves the first result as it was.  The results are equal in
    content but not shared. *)
Theorem process_results_distinct st message (m : dict) :
  heap st !! message = Some m ->
  schema m = true ->
  is_Some (m !! "symbol") ->
  is_Some (m !! "timestamp") ->
  exists first second,
    (process_message schema message st).1 = Ok first
    /\ (process_message schema message
          (process_message schema message st).2).1 = Ok second
    /\ first <> second
    /\ first <> message
    /\ second <> message
    /\ heap (process_message schema message
               (process_message schema message st).2).2 !! first
       = heap (process_message schema message st).2 !! first
    /\ is_Some (heap (process_message schema message st).2 !! first).
Proof.
  intros Hlive Hok [s Hs] [t Ht].
  destruct (process_run_accept schema st message m Hlive Hok)
    as (st1 & Hh1 & E1).
  assert (Hlive1 : heap st1 !! message = Some m) by now rewrite Hh1.
  destruct (simulate_run st1 message m s t Hlive1 Hs Ht) as (st2 & R1 & Hh2).
  rewrite E1, R1. cbn [fst snd].
  assert (Hfirst : heap st2 !! fresh (dom (heap st1)) = Some
            {[ "symbol" := s; "timestamp" := t;
               "strategy" := VStr "SMA_Crossover"; "signal" := VStr "buy";
               "confidence" := VFloat 0.85 ]})
    by now rewrite Hh2, lookup_insert_eq.
  assert (Hlive2 : heap st2 !! message = Some m).
  { rewrite Hh2, lookup_insert_ne; [exact Hlive1 |].
    eapply fresh_differs, Hlive1. }
  destruct (process_run_accept schema st2 message m Hlive2 Hok)
    as (st3 & Hh3 & E3).
  assert (Hlive3 : heap st3 !! message = Some m) by now rewrite Hh3.
  destruct (simulate_run st3 message m s t Hlive3 Hs Ht) as (st4 & R3 & Hh4).
  rewrite E3, R3. cbn [fst snd].
  exists (fresh (dom (heap st1))), (fresh (dom (heap st3))).
  assert (Hne : fresh (dom (heap st3)) <> fresh (dom (heap st1))).
  { eapply fresh_differs. rewrite Hh3. exact Hfirst. }
  split; [reflexivity |]. split; [reflexivity |].
  split; [congruence |].
  split; [eapply fresh_differs, Hlive1 |].
  split; [eapply fresh_differs, Hlive3 |].
  split; [| rewrite Hfirst; eauto].
  rewrite Hh4, lookup_insert_ne by exact Hne. now rewrite Hh3.
Qed.

(** X6. The log of a [process_message] call is the validator's records
    followed by the simulator's: on a rejected message the simulator writes
    nothing, and the log ends with the validator's ERROR record. *)
Theorem process_log_trace st message (m : dict) :
  heap st !! message = Some m ->
  log (process_message schema message st).2
  = (log (validate_input_message schema message st).2
     ++ (if schema m then
           LogRecord DEBUG "🧠 Simulating technical strategy for symbol: %s"
             [default VNone (m !! "symbol")]
           :: match (process_message schema message st).1 with
              | Ok result =>
                  [LogRecord INFO "📈 Generated signal: %s" [VRef result]]
              | _ => []
              end
         else []))%list.
Proof.
  intros Hlive.
  destruct (schema m) eqn:Hm.
  - destruct (validate_run_accept schema st message m Hlive Hm)
      as (st1 & Hrun & Hh).
    unfold process_message, bind. rewrite Hrun. cbn [snd].
    apply simulate_log_trace. now rewrite Hh.
  - destruct (validate_run_reject schema st message m Hlive Hm)
      as (st1 & Hrun & Hh).
    unfold process_message, bind. rewrite Hrun. cbn [snd].
    now rewrite app_nil_r.
Qed.

(** X7. On a message the schema predicate accepts, [process_message] hands
    back what the simulator called directly would hand back: the same
    mapping, or the same [KeyError]. *)
Theorem process_agrees_with_simulate st message (m : dict) :
  heap st !! message = Some m ->
  schema m = true ->
  returned_mapping (process_message schema message st)
  = returned_mapping (simulate_technical_strategy message st).
Proof.
  intros Hlive Hok.
  destruct (process_run_accept schema st message m Hlive Hok)
    as (st1 & Hh & ->).
  apply (simulate_reads_two_fields st1 st message message m m);
    [now rewrite Hh | exact Hlive | reflexivity | reflexivity].
Qed.

End ProcessorTraces.

(** ** These properties on the example messages *)

Lemma validate_log_trace_witness :
  heap example_state !! 3%positive = Some partial_message
  /\ log (validate_input_message required_fields_schema 3 example_state).2
     = [ LogRecord DEBUG "🔍 Validating input message schema..." [];
         LogRecord ERROR "❌ Invalid message schema: %s" [VRef 3] ].
Proof.
  split; [reflexivity |].
  exact (validate_log_trace required_fields_schema example_state 3
           partial_message eq_refl).
Defined.

Lemma simulate_log_trace_witness :
  log (simulate_technical_strategy 1 example_state).2
  = [ LogRecord DEBUG "🧠 Simulating technical strategy for symbol: %s"
        [VStr "AAPL"];
      LogRecord INFO "📈 Generated signal: %s" [VRef 4] ]
  /\ log (simulate_technical_strategy 3 example_state).2
     = [ LogRecord DEBUG "🧠 Simulating technical strategy for symbol: %s"
           [VStr "AAPL"] ].
Proof.
  split.
  - exact (simulate_log_trace example_state 1 aapl_message eq_refl).
  - exact (simulate_log_trace example_state 3 partial_message eq_refl).
Defined.

Lemma process_succeeds_iff_witness :
  (exists result,
     (process_message required_fields_schema 2 example_state).1 = Ok result)
  /\ forall e,
       (process_message permissive_schema 3 example_state).1 = Raise e ->
       e = KeyError "timestamp".
Proof.
  split.
  - destruct (process_succeeds_iff required_fields_schema example_state 2
                rich_message eq_refl) as [[_ Hback] _].
    apply Hback.
    split; [reflexivity |]. split; eexists; reflexivity.
  - intros e He.
    destruct (process_succeeds_iff permissive_schema example_state 3
                partial_message eq_refl) as [_ Hexn].
    destruct (Hexn e He) as [[_ Hko] | [(_ & _ & Hs) | [-> _]]];
      [discriminate Hko | discriminate Hs | reflexivity].
Defined.

Lemma process_store_effect_witness :
  (heap example_state !! 4%positive = None
   /\ exists signal : dict,
        heap (process_message required_fields_schema 1 example_state).2
        = <[4%positive := signal]> (heap example_state))
  /\ heap (process_message permissive_schema 3 example_state).2
     = heap example_state.
Proof.
  split.
  - exact (process_store_effect required_fields_schema example_state 1
             aapl_message eq_refl).
  - exact (process_store_effect permissive_schema example_state 3
             partial_message eq_refl).
Defined.

Lemma process_results_distinct_witness :
  exists first second,
    (process_message required_fields_schema 1 example_state).1 = Ok first
    /\ (process_message required_fields_schema 1
          (process_message required_fields_schema 1 example_state).2).1
       = Ok second
    /\ first <> second
    /\ first <> 1%positive
    /\ second <> 1%positive
    /\ heap (process_message required_fields_schema 1
               (process_message required_fields_schema 1 example_state).2).2
         !! first
       = heap (process_message required_fields_schema 1 example_state).2
           !! first
    /\ is_Some
         (heap (process_message required_fields_schema 1 example_state).2
            !! first).
Proof.
  exact (process_results_distinct required_fields_schema example_state 1
           aapl_message eq_refl eq_refl
           (ex_intro _ _ eq_refl) (ex_intro _ _ eq_refl)).
Defined.

Lemma process_log_trace_witness :
  log (process_message required_fields_schema 3 example_state).2
  = log (validate_input_message required_fields_schema 3 example_state).2
  /\ log (process_message required_fields_schema 1 example_state).2
     = [ LogRecord DEBUG "🔍 Validating input message schema..." [];
         LogRecord DEBUG "🧠 Simulating technical strategy for symbol: %s"
           [VStr "AAPL"];
         LogRecord INFO "📈 Generated signal: %s" [VRef 4] ].
Proof.
  split.
  - exact (eq_trans
             (process_log_trace required_fields_schema example_state 3
                partial_message eq_refl)
             (app_nil_r _)).
  - exact (process_log_trace required_fields_schema example_state 1
             aapl_message eq_refl).
Defined.

Lemma process_agrees_with_simulate_witness :
  heap example_state !! 2%positive = Some rich_message
  /\ required_fields_schema rich_message = true
  /\ returned_mapping (process_message required_fields_schema 2 example_state)
     = returned_mapping (simulate_technical_strategy 2 example_state).
Proof.
  split; [reflexivity |]. split; [reflexivity |].
  exact (process_agrees_with_simulate required_fields_schema example_state 2
           rich_message eq_refl eq_refl).
Defined.
